(** * DMX512 receiver (arduino/code.c): frame assembly and channel store

    A shallow embedding of the Arduino sketch: its global variables become
    one record that is passed from call to call, every read of the outside
    world ([rs485.available()], [rs485.read()], [micros()], [millis()])
    becomes a field of the call's input, and a store outside the bounds of
    [dmxData] (undefined behaviour in C) makes the call return [None].
    [printDMXData] yields the list of its calls on [Serial], [controlLED]
    the arguments of its call of [analogWrite]. *)

From stdpp Require Import base option list.
From Stdlib Require Import ZArith Lia.
From stdpp Require Import strings.

Local Open Scope Z_scope.

(** ** Constants and machine arithmetic *)

Definition DMX_CHANNELS : Z := 512.
Definition DMX_START_CODE : Z := 0.

(** [unsigned long] is 32 bits wide on the AVR targets of the sketch;
    subtraction wraps around. *)
Definition ULONG_SIZE : Z := 2 ^ 32.
Definition ulong_sub (a b : Z) : Z := (a - b) mod ULONG_SIZE.

(** Conversion of the [int] that [rs485.read()] returns to [uint8_t]. *)
Definition to_u8 (v : Z) : Z := v mod 256.

(** ** Global variables *)

Record Globals := mkGlobals {
  dmxData : list Z;            (* uint8_t dmxData[DMX_CHANNELS + 1] *)
  dmxFrameReceived : bool;
  lastFrameTime : Z;           (* unsigned long, milliseconds *)
  dmxState : Z;                (* 0 = waiting for break, 1 = receiving data *)
  channelCount : Z;
  breakStartTime : Z;
  inBreak : bool;
  lastByteTime : Z             (* static local of receiveDMX, microseconds *)
}.

Definition set_dmxData (v : list Z) (g : Globals) : Globals :=
  mkGlobals v (dmxFrameReceived g) (lastFrameTime g) (dmxState g)
            (channelCount g) (breakStartTime g) (inBreak g) (lastByteTime g).
Definition set_dmxFrameReceived (v : bool) (g : Globals) : Globals :=
  mkGlobals (dmxData g) v (lastFrameTime g) (dmxState g)
            (channelCount g) (breakStartTime g) (inBreak g) (lastByteTime g).
Definition set_lastFrameTime (v : Z) (g : Globals) : Globals :=
  mkGlobals (dmxData g) (dmxFrameReceived g) v (dmxState g)
            (channelCount g) (breakStartTime g) (inBreak g) (lastByteTime g).
Definition set_dmxState (v : Z) (g : Globals) : Globals :=
  mkGlobals (dmxData g) (dmxFrameReceived g) (lastFrameTime g) v
            (channelCount g) (breakStartTime g) (inBreak g) (lastByteTime g).
Definition set_channelCount (v : Z) (g : Globals) : Globals :=
  mkGlobals (dmxData g) (dmxFrameReceived g) (lastFrameTime g) (dmxState g)
            v (breakStartTime g) (inBreak g) (lastByteTime g).
Definition set_inBreak (v : bool) (g : Globals) : Globals :=
  mkGlobals (dmxData g) (dmxFrameReceived g) (lastFrameTime g) (dmxState g)
            (channelCount g) (breakStartTime g) v (lastByteTime g).
Definition set_lastByteTime (v : Z) (g : Globals) : Globals :=
  mkGlobals (dmxData g) (dmxFrameReceived g) (lastFrameTime g) (dmxState g)
            (channelCount g) (breakStartTime g) (inBreak g) v.

(** The values the globals have from their initialisers; [dmxData] has
    static storage and starts zeroed. *)
Definition boot : Globals :=
  mkGlobals (replicate (Z.to_nat (DMX_CHANNELS + 1)) 0) false 0 0 0 0 false 0.

(** ** The array [dmxData] *)

(** [dmxData[idx] = v].  The array has [DMX_CHANNELS + 1] elements; a store
    at any other index is undefined behaviour and yields [None]. *)
Definition dmx_store (idx v : Z) (g : Globals) : option Globals :=
  if (0 <=? idx) && (idx <? DMX_CHANNELS + 1)
  then Some (set_dmxData (<[Z.to_nat idx := v]> (dmxData g)) g)
  else None.

(** [dmxData[idx]] as an rvalue. *)
Definition dmx_load (idx : Z) (g : Globals) : Z :=
  default 0 (dmxData g !! Z.to_nat idx).

(** ** setup() *)

(** [for(int i = 0; i <= DMX_CHANNELS; i++) dmxData[i] = 0;]
    (the serial initialisation and banner have no effect on the globals). *)
Definition setup (g : Globals) : option Globals :=
  foldl (fun acc i => acc ≫= dmx_store i 0) (Some g)
        (seqZ 0 (DMX_CHANNELS + 1)).

(** ** receiveDMX() *)

(** What one call reads from its environment. *)
Record RxIn := mkRxIn {
  rx_available : bool;   (* rs485.available() *)
  rx_micros : Z;         (* micros() *)
  rx_read : Z;           (* rs485.read() *)
  rx_millis : Z          (* millis(), read when a frame completes *)
}.

Definition receivedByte (i : RxIn) : Z := to_u8 (rx_read i).

(** [currentTime - lastByteTime > 88] *)
Definition break_detected (i : RxIn) (g : Globals) : bool :=
  88 <? ulong_sub (rx_micros i) (lastByteTime g).

(** Lines 62-67: a break starts a new frame. *)
Definition detect_break (i : RxIn) (g : Globals) : Globals :=
  if break_detected i g
  then set_inBreak false (set_channelCount 0 (set_dmxState 1 g))
  else g.

(** Lines 69-95: the byte is read and, while receiving, taken as start code
    or as the next channel.  [channelCount++] is only executed under a guard
    that keeps the counter at most [DMX_CHANNELS], so the [int] never
    overflows. *)
Definition handle_byte (i : RxIn) (g : Globals) : option Globals :=
  let g := set_lastByteTime (rx_micros i) g in
  if dmxState g =? 1 then
    if channelCount g =? 0 then
      if receivedByte i =? DMX_START_CODE then
        g ← dmx_store 0 (receivedByte i) g;
        Some (set_channelCount (channelCount g + 1) g)
      else
        Some (set_dmxState 0 g)
    else if channelCount g <=? DMX_CHANNELS then
      g ← dmx_store (channelCount g) (receivedByte i) g;
      let g := set_channelCount (channelCount g + 1) g in
      if DMX_CHANNELS <? channelCount g then
        Some (set_dmxState 0
               (set_lastFrameTime (rx_millis i)
                 (set_dmxFrameReceived true g)))
      else Some g
    else Some g
  else Some g.

Definition receiveDMX (i : RxIn) (g : Globals) : option Globals :=
  if rx_available i
  then handle_byte i (detect_break i g)
  else Some g.

(** ** loop() *)

(** A pass of [loop] reads the millisecond clock up to three more times. *)
Record LoopIn := mkLoopIn {
  lp_rx : RxIn;
  lp_millis_print : Z;     (* line 41 *)
  lp_millis_stamp : Z;     (* line 43 *)
  lp_millis_timeout : Z    (* line 47 *)
}.

(** Lines 40-52.  [printDMXData] and [Serial.println] only write to the
    serial console. *)
Definition loop_tail (i : LoopIn) (g : Globals) : Globals :=
  let g :=
    if dmxFrameReceived g
       && (1000 <? ulong_sub (lp_millis_print i) (lastFrameTime g))
    then set_lastFrameTime (lp_millis_stamp i) g
    else g in
  if 5000 <? ulong_sub (lp_millis_timeout i) (lastFrameTime g) then
    if dmxFrameReceived g then set_dmxFrameReceived false g else g
  else g.

Definition loop (i : LoopIn) (g : Globals) : option Globals :=
  g ← receiveDMX (lp_rx i) g;
  Some (loop_tail i g).

(** ** Application interface *)

Definition getDMXChannel (channel : Z) (g : Globals) : Z :=
  if (1 <=? channel) && (channel <=? DMX_CHANNELS) && dmxFrameReceived g
  then dmx_load channel g
  else 0.

(** [now] is the value of [millis()] at the call. *)
Definition isDMXConnected (now : Z) (g : Globals) : bool :=
  dmxFrameReceived g && (ulong_sub now (lastFrameTime g) <? 2000).

(** ** Executions *)

(** The sketch is driven by calls of [receiveDMX], on its own or as the
    first statement of a pass of [loop]. *)
Inductive Call :=
| CallReceive (i : RxIn)
| CallLoop (i : LoopIn).

Definition call_rx (c : Call) : RxIn :=
  match c with
  | CallReceive i => i
  | CallLoop i => lp_rx i
  end.

Definition exec (c : Call) (g : Globals) : option Globals :=
  match c with
  | CallReceive i => receiveDMX i g
  | CallLoop i => loop i g
  end.

Fixpoint run (cs : list Call) (g : Globals) : option Globals :=
  match cs with
  | [] => Some g
  | c :: cs => g ← exec c g; run cs g
  end.

(** The sketch from reset: [setup()] once, then the calls. *)
Definition power_on (cs : list Call) : option Globals :=
  g ← setup boot; run cs g.

Definition reachable (g : Globals) : Prop :=
  ∃ cs, power_on cs = Some g.

(** The call stores the 512th channel byte: the guards of lines 72, 83
    and 89 all hold. *)
Definition completes_frame (i : RxIn) (g : Globals) : bool :=
  let g := detect_break i g in
  rx_available i
  && (dmxState g =? 1)
  && negb (channelCount g =? 0)
  && (channelCount g <=? DMX_CHANNELS)
  && (DMX_CHANNELS <? channelCount g + 1).

(** The buffer as it stood at the end of the last call that completed a
    frame, [None] while no frame has completed; [pub] is the value before
    the calls [cs]. *)
Fixpoint last_frame (cs : list Call) (g : Globals) (pub : option (list Z))
  : option (list Z) :=
  match cs with
  | [] => pub
  | c :: cs =>
      match exec c g with
      | Some g' =>
          last_frame cs g'
            (if completes_frame (call_rx c) g then Some (dmxData g') else pub)
      | None => pub
      end
  end.

Definition completed_frame (cs : list Call) : option (list Z) :=
  match setup boot with
  | Some g => last_frame cs g None
  | None => None
  end.

(** Calls of [receiveDMX] in which no byte starts a new frame; [t] is
    [lastByteTime] before the calls. *)
Fixpoint no_break (t : Z) (ins : list RxIn) : Prop :=
  match ins with
  | [] => True
  | i :: ins =>
      if rx_available i
      then (88 <? ulong_sub (rx_micros i) t) = false ∧ no_break (rx_micros i) ins
      else no_break t ins
  end.

(** The bytes that a sequence of calls takes from the serial line. *)
Fixpoint received (ins : list RxIn) : list Z :=
  match ins with
  | [] => []
  | i :: ins =>
      if rx_available i then receivedByte i :: received ins else received ins
  end.

(** ** Concrete executions *)

(** A pass of [loop] at [t] microseconds after reset; the millisecond clock
    shows [t / 1000] at each of its reads. *)
Definition pass (avail : bool) (t byte : Z) : Call :=
  CallLoop (mkLoopIn (mkRxIn avail t byte (t / 1000))
                     (t / 1000) (t / 1000) (t / 1000)).

(** Passes of [loop] that each find one byte, 44 microseconds apart from
    [t0] on. *)
Definition byte_passes (t0 : Z) (bytes : list Z) : list Call :=
  imap (fun k b => pass true (t0 + 44 * Z.of_nat k) b) bytes.

(** A whole frame, its 512 channels at value 1, received from 100 ms on. *)
Definition frame_of_ones : list Call :=
  byte_passes 100000 (0 :: replicate 512 1).

(** ... then a pass of [loop] without input at 1200 ms. *)
Definition frame_then_silence : list Call :=
  frame_of_ones ++ [pass false 1200000 0].

(** ... or a pass of [loop] without input whose first clock read shows
    1000 ms and whose last one 5200 ms. *)
Definition frame_then_stalled_pass : list Call :=
  frame_of_ones
  ++ [CallLoop (mkLoopIn (mkRxIn false 1000000 0 1000) 1000 1000 5200)].

(** ... or a second frame of which only channel 1 has arrived. *)
Definition frame_then_one_channel : list Call :=
  frame_of_ones ++ byte_passes 200000 [0; 7].

(** ... or a second frame cut short after 200 channels by a break with
    start code 0x55. *)
Definition frame_then_truncated : list Call :=
  frame_of_ones ++ byte_passes 200000 (0 :: replicate 200 9)
  ++ byte_passes 300000 [85].

(** ** controlLED() *)

(** The arguments of the one [analogWrite] call that [controlLED] makes;
    [now] is the value of [millis()] read by [isDMXConnected]. *)
Definition controlLED (now : Z) (g : Globals) : Z * Z :=
  if isDMXConnected now g then
    let brightness := getDMXChannel 1 g in
    (9, brightness)
  else
    (9, 0).

(** ** printDMXData() *)

(** The calls on [Serial], one constructor for each overload of [print] and
    [println] that the sketch uses. *)
Inductive SerialCall :=
| print_str (s : string)       (* Serial.print("...") *)
| println_str (s : string)     (* Serial.println("...") *)
| print_int (n : Z)            (* Serial.print(int) *)
| print_u8 (b : Z)             (* Serial.print(uint8_t) *)
| println_u8_hex (b : Z)       (* Serial.println(uint8_t, HEX) *)
| println_empty.               (* Serial.println() *)

(** The five calls that report channel [i]. *)
Definition print_channel (i : Z) (g : Globals) : list SerialCall :=
  [print_str "Ch"; print_int i; print_str ": "; print_u8 (dmx_load i g);
   print_str " "].

(** [for(int i = 1; i <= 16 && i <= DMX_CHANNELS; i++)] *)
Definition print_first_channels (g : Globals) : list SerialCall :=
  flat_map (fun i => print_channel i g
                     ++ (if i mod 8 =? 0 then [println_empty] else []))
           (seqZ 1 (Z.min 16 DMX_CHANNELS)).

(** [for(int i = 17; i <= DMX_CHANNELS; i++) if(dmxData[i] > 0) ...] *)
Definition print_nonzero_channels (g : Globals) : list SerialCall :=
  flat_map (fun i => if 0 <? dmx_load i g then print_channel i g else [])
           (seqZ 17 (DMX_CHANNELS - 16)).

Definition printDMXData (g : Globals) : list SerialCall :=
  [println_str "=== DMX Frame Received ===";
   print_str "Start Code: ";
   println_u8_hex (dmx_load 0 g);
   println_str "First 16 channels:"]
  ++ print_first_channels g
  ++ [println_empty; println_str "Non-zero channels:"]
  ++ print_nonzero_channels g
  ++ [println_empty; println_str "========================"].

(** The channel numbers and the channel values in a console trace, in the
    order in which they are printed. *)
Definition printed_channels (out : list SerialCall) : list Z :=
  omap (fun c => match c with print_int n => Some n | _ => None end) out.
Definition printed_values (out : list SerialCall) : list Z :=
  omap (fun c => match c with print_u8 b => Some b | _ => None end) out.

(** ** Further notions on executions *)

(** The number of bytes that a sequence of calls reads from the serial
    line. *)
Definition bytes_read (cs : list Call) : nat :=
  length (filter (fun c => rx_available (call_rx c) = true) cs).

(** [no_break] as a test. *)
Fixpoint no_breakb (t : Z) (ins : list RxIn) : bool :=
  match ins with
  | [] => true
  | i :: ins =>
      if rx_available i
      then negb (88 <? ulong_sub (rx_micros i) t) && no_breakb (rx_micros i) ins
      else no_breakb t ins
  end.


(** Calls of [receiveDMX] that each find one byte, 44 microseconds apart
    from [t0] on, with the millisecond clock at [ms]. *)
Definition byte_inputs (t0 ms : Z) (bytes : list Z) : list RxIn :=
  imap (fun k b => mkRxIn true (t0 + 44 * Z.of_nat k) b ms) bytes.

(** ** Invariants of the globals *)

Record Inv (g : Globals) : Prop := mkInv {
  inv_length : length (dmxData g) = Z.to_nat (DMX_CHANNELS + 1);
  inv_count : 0 ≤ channelCount g ≤ DMX_CHANNELS + 1;
  inv_start : dmxData g !! 0%nat = Some DMX_START_CODE;
  inv_state : dmxState g = 0 ∨ (dmxState g = 1 ∧ 1 ≤ channelCount g ≤ DMX_CHANNELS)
}.

(** How the last completed frame relates to the globals. *)
Record PubInv (g : Globals) (pub : option (list Z)) : Prop := mkPubInv {
  pub_none : pub = None → dmxFrameReceived g = false;
  pub_idle : channelCount g = DMX_CHANNELS + 1 → pub = Some (dmxData g)
}.

(** ** Proof tools *)

Ltac case_cmp :=
  match goal with
  | |- context [Z.eqb ?a ?b] => destruct (Z.eqb_spec a b)
  | |- context [Z.leb ?a ?b] => destruct (Z.leb_spec a b)
  | |- context [Z.ltb ?a ?b] => destruct (Z.ltb_spec a b)
  end.

Ltac unfold_setters :=
  unfold dmx_store, set_inBreak, set_channelCount, set_dmxState,
    set_lastByteTime, set_dmxFrameReceived, set_lastFrameTime, set_dmxData,
    DMX_CHANNELS, DMX_START_CODE in *; simpl in *.

(** Case analysis along the branches of [receiveDMX], the break test
    first. *)
Ltac receive_cases :=
  unfold receiveDMX, handle_byte, completes_frame, detect_break;
  repeat match goal with
    | |- context [rx_available ?i] => destruct (rx_available i) eqn:?
    | |- context [break_detected ?i ?g] =>
        destruct (break_detected i g) eqn:?
    end;
  unfold_setters; repeat (case_cmp; simpl in * ).

Lemma setup_boot : setup boot = Some boot.
Proof. reflexivity. Qed.

Lemma power_on_run cs : power_on cs = run cs boot.
Proof. unfold power_on. rewrite setup_boot. reflexivity. Qed.

Lemma Inv_boot : Inv boot.
Proof. split; simpl; try done; unfold DMX_CHANNELS; lia. Qed.

Lemma PubInv_boot : PubInv boot None.
Proof. split; simpl; [done | unfold DMX_CHANNELS; lia]. Qed.

(** ** One call of receiveDMX *)

Lemma receiveDMX_idle i g :
  rx_available i = false → receiveDMX i g = Some g.
Proof. intros H. unfold receiveDMX. by rewrite H. Qed.

(** From a state that satisfies the invariant the call is defined and
    re-establishes the invariant. *)
Lemma receiveDMX_Inv i g :
  Inv g → ∃ g', receiveDMX i g = Some g' ∧ Inv g'.
Proof.
  intros [Hlen Hcnt Hst Hstate]. destruct g as [d f t s c b ib lb].
  receive_cases; try lia;
    eexists; (split; [reflexivity|]); split; simpl;
    rewrite ?length_insert; try done; unfold DMX_CHANNELS; try lia.
  all: try (rewrite list_lookup_insert_eq; [by f_equal | lia]).
  all: rewrite list_lookup_insert_ne; [done | lia].
Qed.

(** [completes_frame] singles out the calls that take the branch of
    lines 89-93. *)
Lemma receiveDMX_completes i g g' :
  Inv g → receiveDMX i g = Some g' →
  if completes_frame i g
  then dmxFrameReceived g' = true ∧ lastFrameTime g' = rx_millis i
       ∧ dmxState g' = 0 ∧ channelCount g' = DMX_CHANNELS + 1
  else dmxFrameReceived g' = dmxFrameReceived g
       ∧ lastFrameTime g' = lastFrameTime g
       ∧ (channelCount g' = DMX_CHANNELS + 1 →
          channelCount g = DMX_CHANNELS + 1 ∧ dmxData g' = dmxData g).
Proof.
  intros [Hlen Hcnt Hst Hstate]. destruct g as [d f t s c b ib lb].
  revert Hcnt Hstate.
  receive_cases; intros Hcnt Hstate Hg'; simplify_eq; simpl;
    repeat split; try done; try lia.
Qed.

(** ** The rest of loop() *)

Lemma loop_tail_frame i g :
  dmxData (loop_tail i g) = dmxData g
  ∧ dmxState (loop_tail i g) = dmxState g
  ∧ channelCount (loop_tail i g) = channelCount g
  ∧ lastByteTime (loop_tail i g) = lastByteTime g
  ∧ (dmxFrameReceived g = false → dmxFrameReceived (loop_tail i g) = false).
Proof.
  unfold loop_tail. destruct g as [d f t s c b ib lb]. unfold_setters.
  destruct f; simpl; repeat (case_cmp; simpl); done.
Qed.

Lemma loop_tail_Inv i g : Inv g → Inv (loop_tail i g).
Proof.
  intros [Hlen Hcnt Hst Hstate].
  destruct (loop_tail_frame i g) as (Hd & Hs & Hc & _).
  split; by rewrite ?Hd, ?Hs, ?Hc.
Qed.

(** ** Calls and executions *)

Lemma exec_Inv c g : Inv g → ∃ g', exec c g = Some g' ∧ Inv g'.
Proof.
  intros HI. destruct c as [i|i]; simpl.
  - by apply receiveDMX_Inv.
  - unfold loop. destruct (receiveDMX_Inv (lp_rx i) g HI) as (g1 & -> & HI1).
    simpl. eexists; split; [done|]. by apply loop_tail_Inv.
Qed.

Lemma exec_PubInv c g g' pub :
  Inv g → PubInv g pub → exec c g = Some g' →
  PubInv g' (if completes_frame (call_rx c) g then Some (dmxData g') else pub).
Proof.
  intros HI [Hnone Hidle] Hex.
  assert (∃ g1, receiveDMX (call_rx c) g = Some g1
                ∧ dmxData g' = dmxData g1
                ∧ channelCount g' = channelCount g1
                ∧ (dmxFrameReceived g1 = false → dmxFrameReceived g' = false))
    as (g1 & Hrx & Hd & Hc & Hf).
  { destruct c as [i|i]; simpl in *.
    - by exists g'.
    - unfold loop in Hex. destruct (receiveDMX (lp_rx i) g) as [g1|]; [|done].
      simpl in Hex. simplify_eq. exists g1.
      destruct (loop_tail_frame i g1) as (? & ? & ? & ? & ?). done. }
  pose proof (receiveDMX_completes _ _ _ HI Hrx) as Hcomp.
  destruct (completes_frame (call_rx c) g).
  - split; [done|]. by rewrite Hd.
  - destruct Hcomp as (Hf1 & _ & Hc1). split.
    + intros Hp. apply Hf. rewrite Hf1. by apply Hnone.
    + rewrite Hc, Hd. intros H513. destruct (Hc1 H513) as [? ->]. by apply Hidle.
Qed.

Lemma run_Inv cs g pub :
  Inv g → PubInv g pub →
  ∃ g', run cs g = Some g' ∧ Inv g' ∧ PubInv g' (last_frame cs g pub).
Proof.
  revert g pub. induction cs as [|c cs IH]; intros g pub HI HP; simpl.
  - by exists g.
  - destruct (exec_Inv c g HI) as (g1 & Hex & HI1). rewrite Hex. simpl.
    apply IH; [done|]. by apply exec_PubInv.
Qed.

Lemma power_on_Inv cs :
  ∃ g, power_on cs = Some g ∧ Inv g ∧ PubInv g (completed_frame cs).
Proof.
  rewrite power_on_run. unfold completed_frame. rewrite setup_boot.
  apply run_Inv; [apply Inv_boot | apply PubInv_boot].
Qed.

Lemma reachable_Inv g : reachable g → Inv g.
Proof.
  intros [cs Hcs]. destruct (power_on_Inv cs) as (g' & Hg' & HI & _).
  congruence.
Qed.

(** ** Break handling *)

(** C4 (break always wins).  Whatever the globals hold, a byte that arrives
    after a gap of more than 88 microseconds is evaluated as a start code in
    the same call: the sketch is afterwards receiving with [channelCount = 1]
    when the byte is 0x00 and waiting for a break otherwise; no channel slot
    (index 1 and up) is touched by the call. *)
Theorem break_always_wins (i : RxIn) (g : Globals) :
  rx_available i = true →
  break_detected i g = true →
  ∃ g', receiveDMX i g = Some g'
    ∧ (receivedByte i = DMX_START_CODE →
       dmxState g' = 1 ∧ channelCount g' = 1)
    ∧ (receivedByte i ≠ DMX_START_CODE →
       dmxState g' = 0 ∧ dmxData g' = dmxData g)
    ∧ (∀ n, 1 ≤ n → dmx_load n g' = dmx_load n g).
Proof.
  intros Hav Hbr. unfold receiveDMX, handle_byte, detect_break. rewrite Hav, Hbr.
  destruct g as [d f t s c b ib lb]. unfold_setters.
  case_cmp; simpl; eexists; (split; [reflexivity|]); simpl;
    repeat split; try done; try lia.
  intros n Hn. unfold dmx_load; simpl.
  rewrite list_lookup_insert_ne; [done | lia].
Qed.

Lemma break_always_wins_witness :
  rx_available (mkRxIn true 1000 0 0) = true
  ∧ break_detected (mkRxIn true 1000 0 0) boot = true
  ∧ ∃ g', receiveDMX (mkRxIn true 1000 0 0) boot = Some g'
      ∧ (receivedByte (mkRxIn true 1000 0 0) = DMX_START_CODE →
         dmxState g' = 1 ∧ channelCount g' = 1)
      ∧ (receivedByte (mkRxIn true 1000 0 0) ≠ DMX_START_CODE →
         dmxState g' = 0 ∧ dmxData g' = dmxData boot)
      ∧ (∀ n, 1 ≤ n → dmx_load n g' = dmx_load n boot).
Proof.
  split; [reflexivity|]. split; [reflexivity|].
  apply (break_always_wins (mkRxIn true 1000 0 0) boot); reflexivity.
Defined.

(** C7 (invalid start code).  When the start-code test of line 73 is
    reached (receiving, [channelCount = 0]) with a byte other than 0x00, the
    call ends waiting for a break and changes neither the buffer nor the
    frame flag, so every channel reads as before. *)
Theorem invalid_start_code_atomic (i : RxIn) (g : Globals) :
  rx_available i = true →
  dmxState (detect_break i g) = 1 →
  channelCount (detect_break i g) = 0 →
  receivedByte i ≠ DMX_START_CODE →
  ∃ g', receiveDMX i g = Some g'
    ∧ dmxState g' = 0
    ∧ dmxData g' = dmxData g
    ∧ dmxFrameReceived g' = dmxFrameReceived g
    ∧ lastFrameTime g' = lastFrameTime g
    ∧ ∀ n, getDMXChannel n g' = getDMXChannel n g.
Proof.
  intros Hav Hs Hc Hb. unfold receiveDMX, handle_byte. rewrite Hav. simpl.
  rewrite Hs, Hc. simpl.
  destruct (Z.eqb_spec (receivedByte i) DMX_START_CODE) as [|_]; [done|].
  eexists; split; [reflexivity|].
  unfold detect_break. destruct (break_detected i g); done.
Qed.

Lemma invalid_start_code_atomic_witness :
  rx_available (mkRxIn true 1000 85 0) = true
  ∧ dmxState (detect_break (mkRxIn true 1000 85 0) boot) = 1
  ∧ channelCount (detect_break (mkRxIn true 1000 85 0) boot) = 0
  ∧ receivedByte (mkRxIn true 1000 85 0) ≠ DMX_START_CODE
  ∧ ∃ g', receiveDMX (mkRxIn true 1000 85 0) boot = Some g'
      ∧ dmxState g' = 0
      ∧ dmxData g' = dmxData boot
      ∧ dmxFrameReceived g' = dmxFrameReceived boot
      ∧ lastFrameTime g' = lastFrameTime boot
      ∧ ∀ n, getDMXChannel n g' = getDMXChannel n boot.
Proof.
  split; [reflexivity|]. split; [reflexivity|]. split; [reflexivity|].
  split; [by vm_compute|].
  apply (invalid_start_code_atomic (mkRxIn true 1000 85 0) boot);
    [reflexivity | reflexivity | reflexivity | by vm_compute].
Defined.

(** ** Invariants along every execution *)

Lemma receiveDMX_cursor i g :
  Inv g →
  ∃ g', receiveDMX i g = Some g'
    ∧ (channelCount g' = 0
       ∨ channelCount g' = channelCount g
       ∨ (channelCount g ≤ DMX_CHANNELS
          ∧ channelCount g' = channelCount g + 1)
       ∨ (break_detected i g = true ∧ channelCount g' = 0 + 1)).
Proof.
  intros [Hlen Hcnt Hst Hstate]. destruct g as [d f t s c b ib lb].
  revert Hcnt Hstate.
  receive_cases; intros Hcnt Hstate; try lia;
    eexists; (split; [reflexivity|]); simpl; try lia.
  all: by repeat right.
Qed.

Lemma receiveDMX_one_store i g :
  Inv g →
  ∃ g', receiveDMX i g = Some g'
    ∧ (dmxData g' = dmxData g
       ∨ ∃ idx, 0 ≤ idx ≤ DMX_CHANNELS
           ∧ dmxData g' = <[Z.to_nat idx := receivedByte i]> (dmxData g)).
Proof.
  intros [Hlen Hcnt Hst Hstate]. destruct g as [d f t s c b ib lb].
  revert Hcnt Hstate.
  receive_cases; intros Hcnt Hstate; try lia;
    eexists; (split; [reflexivity|]); simpl; try (by left).
  all: right; eexists; split; [|reflexivity]; unfold DMX_CHANNELS; lia.
Qed.

(** C6 (bounded channel writes).  The model turns a store to [dmxData]
    outside the indices 0..512 into [None]; from reset, [setup] and every
    sequence of calls run to completion, and a call of [receiveDMX] changes
    at most one slot of the buffer, whose index lies in 0..512. *)
Theorem channel_writes_bounded (cs : list Call) :
  ∃ g, power_on cs = Some g
    ∧ ∀ i, ∃ g', receiveDMX i g = Some g'
        ∧ (dmxData g' = dmxData g
           ∨ ∃ idx, 0 ≤ idx ≤ DMX_CHANNELS
               ∧ dmxData g' = <[Z.to_nat idx := receivedByte i]> (dmxData g)).
Proof.
  destruct (power_on_Inv cs) as (g & Hg & HI & _).
  exists g. split; [done|]. intros i. by apply receiveDMX_one_store.
Qed.

(** C9 (start-code slot).  After [setup] and any sequence of calls, slot 0
    of the buffer holds 0x00. *)
Theorem start_code_slot_zero (cs : list Call) :
  ∃ g, power_on cs = Some g ∧ dmxData g !! 0%nat = Some DMX_START_CODE.
Proof.
  destruct (power_on_Inv cs) as (g & Hg & HI & _).
  exists g. split; [done | apply HI].
Qed.

Lemma detect_break_cursor i g :
  channelCount (detect_break i g) = 0
  ∨ channelCount (detect_break i g) = channelCount g.
Proof. unfold detect_break. destruct (break_detected i g); [by left | by right]. Qed.

Lemma handle_byte_cursor i g :
  0 ≤ channelCount g →
  ∃ g', handle_byte i g = Some g'
    ∧ (channelCount g' = channelCount g
       ∨ (channelCount g ≤ DMX_CHANNELS
          ∧ channelCount g' = channelCount g + 1)).
Proof.
  destruct g as [d f t s c b ib lb]. unfold handle_byte. unfold_setters.
  intros Hc. repeat (case_cmp; simpl); try lia;
    eexists; (split; [reflexivity|]); simpl; lia.
Qed.

(** C10 (cursor bound).  After [setup] and any sequence of calls,
    [channelCount] lies in 0..513.  Each step of a call of [receiveDMX]
    resets the cursor to 0, leaves it unchanged, or increments it from a
    value of at most 512: the break test resets or leaves it, the byte
    handling that follows leaves or increments it.  The rest of [loop] does
    not change it. *)
Theorem cursor_bound (cs : list Call) :
  ∃ g, power_on cs = Some g
    ∧ 0 ≤ channelCount g ≤ DMX_CHANNELS + 1
    ∧ (∀ i,
         (channelCount (detect_break i g) = 0
          ∨ channelCount (detect_break i g) = channelCount g)
         ∧ ∃ g', handle_byte i (detect_break i g) = Some g'
             ∧ (channelCount g' = channelCount (detect_break i g)
                ∨ (channelCount (detect_break i g) ≤ DMX_CHANNELS
                   ∧ channelCount g' = channelCount (detect_break i g) + 1))
             ∧ 0 ≤ channelCount g' ≤ DMX_CHANNELS + 1
             ∧ receiveDMX i g = Some (if rx_available i then g' else g))
    ∧ (∀ i, channelCount (loop_tail i g) = channelCount g).
Proof.
  destruct (power_on_Inv cs) as (g & Hg & HI & _).
  exists g. split; [done|]. split; [apply HI|]. split.
  - intros i. pose proof (detect_break_cursor i g) as Hb.
    pose proof (inv_count g HI) as Hc. split; [done|].
    destruct (handle_byte_cursor i (detect_break i g)) as (g' & Hg' & Hs);
      [lia|].
    exists g'. split; [done|]. split; [done|].
    split; [unfold DMX_CHANNELS in *; lia|].
    unfold receiveDMX. by destruct (rx_available i).
  - intros i. apply loop_tail_frame.
Qed.

(** ** Sequences of calls of receiveDMX *)

Lemma receiveDMX_waiting i g :
  rx_available i = true → break_detected i g = false → dmxState g = 0 →
  receiveDMX i g = Some (set_lastByteTime (rx_micros i) g).
Proof.
  intros Hav Hbr Hs. unfold receiveDMX, handle_byte, detect_break. rewrite Hav, Hbr.
  simpl. by rewrite Hs.
Qed.

(** While the sketch waits for a break, bytes that follow one another
    within 88 microseconds are dropped. *)
Lemma waiting_ignores ins : ∀ g,
  dmxState g = 0 → no_break (lastByteTime g) ins →
  ∃ g', run (CallReceive <$> ins) g = Some g'
    ∧ dmxData g' = dmxData g
    ∧ dmxFrameReceived g' = dmxFrameReceived g
    ∧ lastFrameTime g' = lastFrameTime g
    ∧ dmxState g' = 0
    ∧ channelCount g' = channelCount g.
Proof.
  induction ins as [|i ins IH]; intros g Hs Hnb.
  - by exists g.
  - rewrite fmap_cons. cbn [run exec no_break] in *.
    destruct (rx_available i) eqn:Hav.
    + destruct Hnb as [Hbr Hnb].
      rewrite (receiveDMX_waiting i g Hav Hbr Hs). cbn [mbind option_bind].
      destruct (IH (set_lastByteTime (rx_micros i) g)) as (g' & -> & ?);
        [done | done |]. by exists g'.
    + rewrite (receiveDMX_idle i g Hav). cbn [mbind option_bind]. by apply IH.
Qed.

Lemma receiveDMX_channel i g :
  rx_available i = true → break_detected i g = false →
  dmxState g = 1 → 1 ≤ channelCount g ≤ DMX_CHANNELS →
  receiveDMX i g =
    Some (let g1 := set_channelCount (channelCount g + 1)
                      (set_dmxData (<[Z.to_nat (channelCount g) := receivedByte i]>
                                      (dmxData g))
                         (set_lastByteTime (rx_micros i) g)) in
          if DMX_CHANNELS <? channelCount g + 1
          then set_dmxState 0
                 (set_lastFrameTime (rx_millis i) (set_dmxFrameReceived true g1))
          else g1).
Proof.
  intros Hav Hbr Hs Hc. unfold receiveDMX, handle_byte, detect_break. rewrite Hav, Hbr.
  destruct g as [d f t s c b ib lb]. unfold_setters. subst s. simpl.
  repeat (case_cmp; simpl); try lia; done.
Qed.

Lemma run_no_bytes ins : ∀ g,
  received ins = [] → run (CallReceive <$> ins) g = Some g.
Proof.
  induction ins as [|i ins IH]; intros g Hr; [done|].
  rewrite fmap_cons. cbn [run exec received] in *.
  destruct (rx_available i) eqn:Hav; [done|].
  rewrite (receiveDMX_idle i g Hav). cbn [mbind option_bind]. by apply IH.
Qed.

(** Channel bytes that follow one another without a break fill consecutive
    slots from the cursor on; the byte stored in slot 512 completes the
    frame. *)
Lemma receive_channels ins : ∀ g,
  length (dmxData g) = Z.to_nat (DMX_CHANNELS + 1) →
  dmxState g = 1 → 1 ≤ channelCount g ≤ DMX_CHANNELS →
  channelCount g + Z.of_nat (length (received ins)) ≤ DMX_CHANNELS + 1 →
  no_break (lastByteTime g) ins →
  ∃ g', run (CallReceive <$> ins) g = Some g'
    ∧ dmxData g' =
        take (Z.to_nat (channelCount g)) (dmxData g) ++ received ins
        ++ drop (Z.to_nat (channelCount g) + length (received ins)) (dmxData g)
    ∧ channelCount g' = channelCount g + Z.of_nat (length (received ins))
    ∧ (if DMX_CHANNELS <? channelCount g'
       then dmxState g' = 0 ∧ dmxFrameReceived g' = true
       else dmxState g' = 1 ∧ dmxFrameReceived g' = dmxFrameReceived g
            ∧ lastFrameTime g' = lastFrameTime g).
Proof.
  induction ins as [|i ins IH]; intros g Hlen Hs Hc Hsum Hnb.
  - exists g. split; [done|]. cbn [received length]. rewrite Nat.add_0_r.
    split; [by rewrite app_nil_l, take_drop|]. split; [lia|].
    case_cmp; [lia | done].
  - rewrite fmap_cons. cbn [run exec no_break received] in *.
    destruct (rx_available i) eqn:Hav.
    2:{ rewrite (receiveDMX_idle i g Hav). cbn [mbind option_bind].
        by apply IH. }
    destruct Hnb as [Hbr Hnb]. cbn [length] in *.
    rewrite (receiveDMX_channel i g Hav Hbr Hs Hc). cbn [mbind option_bind].
    assert (Hlk : (Z.to_nat (channelCount g) < length (dmxData g))%nat)
      by (unfold DMX_CHANNELS in *; lia).
    assert (Htake : take (S (Z.to_nat (channelCount g)))
                      (<[Z.to_nat (channelCount g) := receivedByte i]> (dmxData g))
                    = take (Z.to_nat (channelCount g)) (dmxData g) ++ [receivedByte i]).
    { erewrite take_S_r; [|by apply list_lookup_insert_eq].
      by rewrite take_insert_ge. }
    destruct (Z.ltb_spec DMX_CHANNELS (channelCount g + 1)) as [Hfull|Hmore].
    + assert (Hnil : received ins = [])
        by (destruct (received ins); [done | cbn [length] in *; lia]).
      rewrite run_no_bytes by done. eexists; split; [reflexivity|].
      rewrite Hnil. destruct g as [d f t s c b ib lb]. unfold_setters.
      assert (Hc512 : c = 512) by lia. subst c.
      split; [|split; [lia | by case_cmp; [|lia]]].
      rewrite drop_ge by lia.
      rewrite <- Htake. rewrite take_ge; [done|]. rewrite length_insert. lia.
    + edestruct (IH (set_channelCount (channelCount g + 1)
                       (set_dmxData (<[Z.to_nat (channelCount g) := receivedByte i]>
                                       (dmxData g))
                          (set_lastByteTime (rx_micros i) g))))
        as (g' & Hrun & Hd & Hcnt & Hfl).
      * destruct g; unfold_setters. rewrite length_insert. lia.
      * by destruct g.
      * destruct g; unfold_setters; lia.
      * destruct g; unfold_setters; lia.
      * by destruct g.
      * exists g'. split; [done|].
        destruct g as [d f t s c b ib lb]. unfold_setters.
        replace (Z.to_nat (c + 1)) with (S (Z.to_nat c)) in Hd by lia.
        rewrite Htake in Hd. rewrite Hd. split; [|split; [lia | done]].
        rewrite <- app_assoc. cbn [app]. do 2 f_equal.
        f_equal. rewrite drop_insert_lt by lia. f_equal. lia.
Qed.

Lemma receive_frame i0 ins g :
  length (dmxData g) = Z.to_nat (DMX_CHANNELS + 1) →
  rx_available i0 = true → break_detected i0 g = true →
  receivedByte i0 = DMX_START_CODE →
  length (received ins) = Z.to_nat DMX_CHANNELS →
  no_break (rx_micros i0) ins →
  ∃ g', run (CallReceive <$> i0 :: ins) g = Some g'
    ∧ dmxData g' = DMX_START_CODE :: received ins
    ∧ dmxFrameReceived g' = true
    ∧ dmxState g' = 0
    ∧ channelCount g' = DMX_CHANNELS + 1.
Proof.
  intros Hlen Hav Hbr Hb Hn Hnb.
  rewrite fmap_cons. cbn [run exec].
  unfold receiveDMX, handle_byte, detect_break. rewrite Hav, Hbr.
  destruct g as [d f t s c b ib lb]. unfold_setters. rewrite Hb. simpl.
  edestruct (receive_channels ins
               (mkGlobals (<[0%nat:=0]> d) f t 1 1 b false (rx_micros i0)))
    as (g' & Hrun & Hd & Hc & Hfl); simpl;
    rewrite ?length_insert; unfold DMX_CHANNELS; try done; try lia.
  exists g'. split; [done|]. simpl in *. rewrite Hn in *.
  unfold DMX_CHANNELS in *.
  destruct (Z.ltb_spec 512 (channelCount g')); [|lia].
  destruct Hfl as [-> ->]. split; [|split; [done|split; [done|lia]]].
  rewrite Hd. rewrite drop_ge by (rewrite length_insert; lia).
  rewrite app_nil_r. destruct d as [|x d]; [done|]. reflexivity.
Qed.

(** ** Frame completion *)

(** C5 (frame completion).  A channel byte that arrives without a break
    while the sketch is receiving with [channelCount = 512] is stored in
    slot 512 and completes the frame in the same call: the frame flag is
    set, [lastFrameTime] takes the clock value, the sketch waits for a
    break again.  Bytes that follow without a break are dropped: buffer,
    flag, time stamp and every channel stay as they were. *)
Theorem frame_completion (i : RxIn) (more : list RxIn) (g : Globals) :
  rx_available i = true →
  break_detected i g = false →
  dmxState g = 1 →
  channelCount g = DMX_CHANNELS →
  no_break (rx_micros i) more →
  ∃ g1 g2,
    receiveDMX i g = Some g1
    ∧ dmxData g1 = <[Z.to_nat DMX_CHANNELS := receivedByte i]> (dmxData g)
    ∧ dmxFrameReceived g1 = true
    ∧ lastFrameTime g1 = rx_millis i
    ∧ dmxState g1 = 0
    ∧ channelCount g1 = DMX_CHANNELS + 1
    ∧ run (CallReceive <$> more) g1 = Some g2
    ∧ dmxData g2 = dmxData g1
    ∧ dmxFrameReceived g2 = true
    ∧ lastFrameTime g2 = rx_millis i
    ∧ dmxState g2 = 0
    ∧ ∀ n, getDMXChannel n g2 = getDMXChannel n g1.
Proof.
  intros Hav Hbr Hs Hc Hnb.
  rewrite (receiveDMX_channel i g Hav Hbr Hs) by (unfold DMX_CHANNELS in *; lia).
  rewrite Hc. cbn zeta.
  replace (DMX_CHANNELS <? DMX_CHANNELS + 1) with true by done.
  match goal with |- ∃ g1 g2, Some ?x = Some g1 ∧ _ => set (gc := x) end.
  destruct (waiting_ignores more gc) as (g2 & Hrun & Hd & Hf & Ht & Hs2 & Hc2);
    [done | done |].
  exists gc, g2. do 8 (split; [done|]).
  split; [by rewrite Hf|]. split; [by rewrite Ht|]. split; [done|].
  intros n. unfold getDMXChannel, dmx_load. by rewrite Hf, Hd.
Qed.

Lemma frame_completion_witness :
  let i := mkRxIn true 1044 7 5 in
  let more := [mkRxIn true 1088 9 5; mkRxIn false 0 0 0; mkRxIn true 1132 9 6] in
  let g := mkGlobals (replicate 513 0) false 0 1 512 0 false 1000 in
  rx_available i = true
  ∧ break_detected i g = false
  ∧ dmxState g = 1
  ∧ channelCount g = DMX_CHANNELS
  ∧ no_break (rx_micros i) more
  ∧ ∃ g1 g2,
      receiveDMX i g = Some g1
      ∧ dmxData g1 = <[Z.to_nat DMX_CHANNELS := receivedByte i]> (dmxData g)
      ∧ dmxFrameReceived g1 = true
      ∧ lastFrameTime g1 = rx_millis i
      ∧ dmxState g1 = 0
      ∧ channelCount g1 = DMX_CHANNELS + 1
      ∧ run (CallReceive <$> more) g1 = Some g2
      ∧ dmxData g2 = dmxData g1
      ∧ dmxFrameReceived g2 = true
      ∧ lastFrameTime g2 = rx_millis i
      ∧ dmxState g2 = 0
      ∧ ∀ n, getDMXChannel n g2 = getDMXChannel n g1.
Proof.
  intros i more g.
  split; [reflexivity|]. split; [reflexivity|]. split; [reflexivity|].
  split; [reflexivity|]. split; [by vm_compute|].
  apply (frame_completion i more g);
    [reflexivity | reflexivity | reflexivity | reflexivity | by vm_compute].
Defined.

(** ** The first byte *)

Lemma exec_no_byte_boot c :
  rx_available (call_rx c) = false → exec c boot = Some boot.
Proof.
  intros Hav. destruct c as [i|i]; simpl in *.
  - by apply receiveDMX_idle.
  - unfold loop. rewrite (receiveDMX_idle _ _ Hav). simpl. f_equal.
    unfold loop_tail. simpl. by case_cmp.
Qed.

Lemma run_no_byte_boot cs :
  Forall (fun c => rx_available (call_rx c) = false) cs →
  run cs boot = Some boot.
Proof.
  induction 1 as [|c cs Hc _ IH]; [done|].
  cbn [run]. by rewrite (exec_no_byte_boot c Hc).
Qed.

(** C8, as the sketch has it.  Until a byte has been read the globals are
    as [setup] left them, with [lastByteTime = 0]; the first byte is
    classified as a break exactly when the microsecond clock reads more
    than 88 at its arrival. *)
Theorem first_byte_break_iff (cs : list Call) (i : RxIn) :
  Forall (fun c => rx_available (call_rx c) = false) cs →
  rx_available i = true →
  0 ≤ rx_micros i < ULONG_SIZE →
  power_on cs = Some boot
  ∧ (break_detected i boot = true ↔ 88 < rx_micros i).
Proof.
  intros Hcs Hav Hrange. split.
  - rewrite power_on_run. by apply run_no_byte_boot.
  - unfold break_detected, ulong_sub. simpl. rewrite Z.sub_0_r.
    rewrite Z.mod_small by done. apply Z.ltb_lt.
Qed.

Lemma first_byte_break_iff_witness :
  let cs := [pass false 500 0; CallReceive (mkRxIn false 0 0 0)] in
  let i := mkRxIn true 1000 0 1 in
  Forall (fun c => rx_available (call_rx c) = false) cs
  ∧ rx_available i = true
  ∧ 0 ≤ rx_micros i < ULONG_SIZE
  ∧ power_on cs = Some boot
  ∧ (break_detected i boot = true ↔ 88 < rx_micros i).
Proof.
  intros cs i.
  assert (Hcs : Forall (fun c => rx_available (call_rx c) = false) cs)
    by (repeat constructor).
  assert (Hr : 0 ≤ rx_micros i < ULONG_SIZE) by (by vm_compute).
  split; [exact Hcs|]. split; [reflexivity|]. split; [exact Hr|].
  apply (first_byte_break_iff cs i Hcs eq_refl Hr).
Defined.

(** C8, counterexample.  The microsecond clock wraps around every 2^32
    microseconds; a first byte 0x00 that arrives when it reads 50 is not
    classified as a break, and the call leaves the sketch waiting for a
    break with the byte dropped. *)
Lemma first_byte_at_50us_is_no_break :
  break_detected (mkRxIn true 50 0 0) boot = false
  ∧ power_on [CallReceive (mkRxIn true 50 0 0)]
    = Some (set_lastByteTime 50 boot)
  ∧ dmxState (set_lastByteTime 50 boot) = 0
  ∧ channelCount (set_lastByteTime 50 boot) = 0.
Proof. by vm_compute. Qed.

(** A frame that arrives whole is the completed frame from then on,
    whatever was received before it. *)
Lemma receive_frame_published i0 ins g pub :
  Inv g → PubInv g pub →
  rx_available i0 = true → break_detected i0 g = true →
  receivedByte i0 = DMX_START_CODE →
  length (received ins) = Z.to_nat DMX_CHANNELS →
  no_break (rx_micros i0) ins →
  last_frame (CallReceive <$> i0 :: ins) g pub
  = Some (DMX_START_CODE :: received ins).
Proof.
  intros HI HP Hav Hbr Hb Hn Hnb.
  destruct (receive_frame i0 ins g (inv_length g HI) Hav Hbr Hb Hn Hnb)
    as (g' & Hrun & Hd & _ & _ & Hc).
  destruct (run_Inv (CallReceive <$> i0 :: ins) g pub HI HP)
    as (g'' & Hrun' & _ & [_ Hidle]).
  rewrite Hrun in Hrun'. simplify_eq. rewrite <- Hd. by apply Hidle.
Qed.

(** ** Link status *)

(** Right after the call that completes a frame, and before the clock wraps
    around, the link counts as connected for the next 2000 ms. *)
Lemma isDMXConnected_after_completion i g g' now :
  Inv g → receiveDMX i g = Some g' → completes_frame i g = true →
  0 ≤ rx_millis i ≤ now → now < ULONG_SIZE →
  isDMXConnected now g' = (now - rx_millis i <? 2000).
Proof.
  intros HI Hrx Hcomp Hms Hnow.
  pose proof (receiveDMX_completes i g g' HI Hrx) as H.
  rewrite Hcomp in H. destruct H as (Hf & Ht & _).
  unfold isDMXConnected, ulong_sub. rewrite Hf, Ht. simpl.
  rewrite Z.mod_small; [done | lia].
Qed.

(** Line 43 stores the time of the console print in [lastFrameTime]. *)
Lemma loop_tail_refresh i g :
  dmxFrameReceived g = true →
  1000 < ulong_sub (lp_millis_print i) (lastFrameTime g) →
  ulong_sub (lp_millis_timeout i) (lp_millis_stamp i) ≤ 5000 →
  loop_tail i g = set_lastFrameTime (lp_millis_stamp i) g.
Proof.
  intros Hf Hprint Htime. unfold loop_tail. rewrite Hf. simpl.
  destruct (Z.ltb_spec 1000 (ulong_sub (lp_millis_print i) (lastFrameTime g)));
    [|lia].
  simpl. case_cmp; [lia | done].
Qed.

Lemma ulong_sub_triangle a b c :
  ulong_sub a c ≤ ulong_sub a b + ulong_sub b c.
Proof.
  unfold ulong_sub, ULONG_SIZE.
  replace (a - c) with ((a - b) + (b - c)) by lia.
  rewrite Z.add_mod by lia.
  pose proof (Z.mod_pos_bound (a - b) (2 ^ 32) ltac:(lia)).
  pose proof (Z.mod_pos_bound (b - c) (2 ^ 32) ltac:(lia)).
  apply Z.mod_le; lia.
Qed.

(** The timeout of lines 47-52 clears the frame flag only in a pass of
    [loop] whose clock reads lie seconds apart. *)
Lemma loop_tail_keeps_flag i g :
  dmxFrameReceived g = true →
  ulong_sub (lp_millis_timeout i) (lp_millis_stamp i) ≤ 5000 →
  ulong_sub (lp_millis_timeout i) (lp_millis_print i) ≤ 4000 →
  dmxFrameReceived (loop_tail i g) = true.
Proof.
  intros Hf Hstamp Hprint. unfold loop_tail. rewrite Hf. simpl.
  destruct (Z.ltb_spec 1000 (ulong_sub (lp_millis_print i) (lastFrameTime g)))
    as [Hlt|Hle]; simpl.
  - case_cmp; [lia | done].
  - rewrite Hf.
    pose proof (ulong_sub_triangle (lp_millis_timeout i) (lp_millis_print i)
                  (lastFrameTime g)).
    case_cmp; [lia | done].
Qed.

(** The timeout branch at work: a frame has completed at 122 ms, and in a
    pass of [loop] whose clock reads lie 4200 ms apart the flag is cleared;
    channel 1, which held 1, reads 0 afterwards. *)
Lemma loop_timeout_clears_flag :
  getDMXChannel 1 <$> power_on frame_of_ones = Some 1
  ∧ dmxFrameReceived <$> power_on frame_then_stalled_pass = Some false
  ∧ getDMXChannel 1 <$> power_on frame_then_stalled_pass = Some 0.
Proof. do 2 (split; [vm_compute; reflexivity|]). vm_compute; reflexivity. Qed.

(** C2, the sketch at work.  A frame completes at 122 ms; read right
    after it, the link is connected until 2121 ms and disconnected from
    2122 ms on.  After one pass of [loop] without input at 1200 ms no
    further frame has completed, yet [lastFrameTime] is 1200 and the link
    still counts as connected at 2122 ms and at 3199 ms. *)
Theorem isDMXConnected_refreshed_by_loop :
  ∃ g1 g2,
    power_on frame_of_ones = Some g1
    ∧ dmxFrameReceived g1 = true
    ∧ lastFrameTime g1 = 122
    ∧ isDMXConnected 2121 g1 = true
    ∧ isDMXConnected 2122 g1 = false
    ∧ power_on frame_then_silence = Some g2
    ∧ completed_frame frame_then_silence = completed_frame frame_of_ones
    ∧ lastFrameTime g2 = 1200
    ∧ isDMXConnected 2122 g2 = true
    ∧ isDMXConnected 3199 g2 = true.
Proof.
  eexists _, _. do 9 (split; [vm_compute; reflexivity|]).
  vm_compute; reflexivity.
Qed.

(** ** What a reader sees *)

(** C3, counterexample.  A frame with all channels at 1 has completed and
    of the next frame only the start code and channel 1 = 7 have arrived:
    channel 1 reads 7, the value in the last completed frame is 1. *)
Lemma getDMXChannel_reads_unfinished_frame :
  ∃ g f,
    power_on frame_then_one_channel = Some g
    ∧ completed_frame frame_then_one_channel = Some f
    ∧ f !! 1%nat = Some 1
    ∧ dmxState g = 1
    ∧ channelCount g = 2
    ∧ getDMXChannel 1 g = 7.
Proof.
  eexists _, _. do 5 (split; [vm_compute; reflexivity|]).
  vm_compute; reflexivity.
Qed.

(** C3, as the sketch has it.  After [setup] and any sequence of calls,
    [getDMXChannel n] is 0 while no frame has completed, whenever the frame
    flag is clear, and for [n] outside 1..512; with the flag set it is the
    byte that slot [n] of the one buffer holds at that moment, which is the
    byte of the last completed frame as long as no break has followed the
    completion ([channelCount = 513]).  A call of [receiveDMX] never clears
    the flag, and neither does the rest of a pass of [loop] whose clock
    reads lie within 4000 ms of each other. *)
Theorem getDMXChannel_value (cs : list Call) :
  ∃ g, power_on cs = Some g
    ∧ (completed_frame cs = None → ∀ n, getDMXChannel n g = 0)
    ∧ (dmxFrameReceived g = false → ∀ n, getDMXChannel n g = 0)
    ∧ (∀ n, ¬ (1 ≤ n ≤ DMX_CHANNELS) → getDMXChannel n g = 0)
    ∧ (dmxFrameReceived g = true → ∀ n, 1 ≤ n ≤ DMX_CHANNELS →
       dmxData g !! Z.to_nat n = Some (getDMXChannel n g))
    ∧ (dmxFrameReceived g = true → channelCount g = DMX_CHANNELS + 1 →
       ∀ n, 1 ≤ n ≤ DMX_CHANNELS →
       completed_frame cs ≫= (.!! Z.to_nat n) = Some (getDMXChannel n g))
    ∧ (∀ i, ∃ g', receiveDMX i g = Some g'
         ∧ (dmxFrameReceived g = true → dmxFrameReceived g' = true))
    ∧ (∀ i, dmxFrameReceived g = true →
         ulong_sub (lp_millis_timeout i) (lp_millis_stamp i) ≤ 5000 →
         ulong_sub (lp_millis_timeout i) (lp_millis_print i) ≤ 4000 →
         dmxFrameReceived (loop_tail i g) = true).
Proof.
  destruct (power_on_Inv cs) as (g & Hg & HI & [Hnone Hidle]).
  exists g. split; [done|].
  assert (Hoff : dmxFrameReceived g = false → ∀ n, getDMXChannel n g = 0).
  { intros Hf n. unfold getDMXChannel. rewrite Hf.
    by rewrite andb_false_r. }
  assert (Hon : dmxFrameReceived g = true → ∀ n, 1 ≤ n ≤ DMX_CHANNELS →
                dmxData g !! Z.to_nat n = Some (getDMXChannel n g)).
  { intros Hf n Hn. unfold getDMXChannel, dmx_load. rewrite Hf.
    destruct (Z.leb_spec 1 n); [|lia].
    destruct (Z.leb_spec n DMX_CHANNELS); [|lia]. simpl.
    destruct (lookup_lt_is_Some_2 (dmxData g) (Z.to_nat n)) as [x Hx].
    - rewrite (inv_length g HI). unfold DMX_CHANNELS in *. lia.
    - by rewrite Hx. }
  split; [by intros Hp; apply Hoff, Hnone|]. split; [done|]. split.
  { intros n Hn. unfold getDMXChannel.
    destruct (Z.leb_spec 1 n); [|done].
    destruct (Z.leb_spec n DMX_CHANNELS); [lia | done]. }
  split; [done|]. split.
  { intros Hf Hc n Hn. rewrite (Hidle Hc). simpl. by apply Hon. }
  split; [|by intros i; apply loop_tail_keeps_flag].
  intros i. destruct (receiveDMX_Inv i g HI) as (g' & Hrx & _).
  exists g'. split; [done|]. intros Hf.
  pose proof (receiveDMX_completes i g g' HI Hrx) as H.
  destruct (completes_frame i g); [apply H|].
  destruct H as [-> _]. done.
Qed.

(** C1, counterexample.  A frame with all channels at 1 has completed; a
    second frame is cut short after 200 channels of value 9 by a break with
    start code 0x55.  The sketch waits for a break, no second frame has
    completed, and channel 1 reads 9 from the truncated frame while channel
    201 still reads 1. *)
Lemma truncated_frame_stays_visible :
  ∃ g f,
    power_on frame_then_truncated = Some g
    ∧ completed_frame frame_then_truncated = Some f
    ∧ dmxState g = 0
    ∧ f !! 1%nat = Some 1
    ∧ getDMXChannel 1 g = 9
    ∧ getDMXChannel 201 g = 1.
Proof.
  eexists _, _. do 5 (split; [vm_compute; reflexivity|]).
  vm_compute; reflexivity.
Qed.

(** C1, as the sketch has it.  After [setup] and any sequence of calls:
    while no frame has completed every channel reads 0, also in the middle
    of a frame; from the completion of a frame until the next break
    ([channelCount = 513]) the buffer is that frame; and at all times a
    channel reads 0 or the byte its slot of the one buffer holds at that
    moment. *)
Theorem publication_points (cs : list Call) :
  ∃ g, power_on cs = Some g
    ∧ (completed_frame cs = None → ∀ n, getDMXChannel n g = 0)
    ∧ (channelCount g = DMX_CHANNELS + 1 →
       completed_frame cs = Some (dmxData g))
    ∧ (∀ n, getDMXChannel n g = 0 ∨ getDMXChannel n g = dmx_load n g).
Proof.
  destruct (power_on_Inv cs) as (g & Hg & HI & [Hnone Hidle]).
  exists g. split; [done|]. split; [|split; [done|]].
  - intros Hp n. unfold getDMXChannel. rewrite (Hnone Hp).
    by rewrite andb_false_r.
  - intros n. unfold getDMXChannel.
    destruct (_ && _); [by right | by left].
Qed.

(** * Further properties of the sketch *)

(** ** setup() *)

Lemma setup_prefix (g : Globals) (n : nat) :
  (n ≤ Z.to_nat (DMX_CHANNELS + 1))%nat →
  length (dmxData g) = Z.to_nat (DMX_CHANNELS + 1) →
  foldl (fun acc i => acc ≫= dmx_store i 0) (Some g) (seqZ 0 (Z.of_nat n))
  = Some (set_dmxData (replicate n 0 ++ drop n (dmxData g)) g).
Proof.
  intros Hn Hlen. induction n as [|n IH].
  - simpl. rewrite drop_0. by destruct g.
  - rewrite seqZ_S, foldl_snoc, IH by lia. rewrite Z.add_0_l.
    cbn [mbind option_bind]. unfold dmx_store. unfold DMX_CHANNELS in *.
    destruct (Z.leb_spec 0 (Z.of_nat n)); [|lia].
    destruct (Z.ltb_spec (Z.of_nat n) (512 + 1)); [|lia].
    cbn [andb]. unfold set_dmxData; cbn [dmxData dmxFrameReceived
      lastFrameTime dmxState channelCount breakStartTime inBreak lastByteTime].
    do 2 f_equal. rewrite Nat2Z.id.
    destruct (lookup_lt_is_Some_2 (dmxData g) n) as [x Hx]; [lia|].
    rewrite (drop_S _ x n Hx).
    rewrite insert_app_r_alt by (rewrite length_replicate; lia).
    rewrite length_replicate, Nat.sub_diag. cbn [insert list_insert].
    rewrite replicate_S_end, <- app_assoc. done.
Qed.

(** X1.  Whatever the globals hold, [setup] stores 0 in each of the 513
    slots of the buffer, all of them in bounds, and changes nothing else. *)
Theorem setup_zeroes_buffer (g : Globals) :
  length (dmxData g) = Z.to_nat (DMX_CHANNELS + 1) →
  setup g
  = Some (set_dmxData (replicate (Z.to_nat (DMX_CHANNELS + 1)) 0) g).
Proof.
  intros Hlen. unfold setup.
  replace (DMX_CHANNELS + 1) with (Z.of_nat (Z.to_nat (DMX_CHANNELS + 1))) at 1
    by done.
  rewrite setup_prefix by done.
  rewrite drop_ge by lia. by rewrite app_nil_r.
Qed.

Lemma setup_zeroes_buffer_witness :
  let g := mkGlobals (replicate 513 7) true 5 1 9 0 false 3 in
  length (dmxData g) = Z.to_nat (DMX_CHANNELS + 1)
  ∧ setup g
    = Some (set_dmxData (replicate (Z.to_nat (DMX_CHANNELS + 1)) 0) g).
Proof.
  intros g. split; [reflexivity|].
  apply (setup_zeroes_buffer g). reflexivity.
Defined.

(** ** More invariants along every execution *)

(** A property of the globals that every call preserves holds after
    [setup] and any sequence of calls. *)
Lemma power_on_invariant (P : Globals → Prop) :
  P boot →
  (∀ c g g', Inv g → P g → exec c g = Some g' → P g') →
  ∀ cs, ∃ g, power_on cs = Some g ∧ Inv g ∧ P g.
Proof.
  intros Hboot Hstep cs. rewrite power_on_run.
  assert (∀ g, Inv g → P g → ∃ g', run cs g = Some g' ∧ Inv g' ∧ P g') as H.
  { induction cs as [|c cs IH]; intros g HI HP; simpl.
    - by exists g.
    - destruct (exec_Inv c g HI) as (g1 & Hex & HI1). rewrite Hex. simpl.
      apply IH; [done|]. by apply (Hstep c g g1). }
  apply H; [apply Inv_boot | done].
Qed.

Lemma exec_dmxData c g g' :
  Inv g → exec c g = Some g' →
  dmxData g' = dmxData g
  ∨ ∃ idx, 0 ≤ idx ≤ DMX_CHANNELS
      ∧ dmxData g' = <[Z.to_nat idx := receivedByte (call_rx c)]> (dmxData g).
Proof.
  intros HI Hex. destruct c as [i|i]; simpl in *.
  - destruct (receiveDMX_one_store i g HI) as (g1 & Hg1 & H).
    by simplify_eq.
  - unfold loop in Hex.
    destruct (receiveDMX_one_store (lp_rx i) g HI) as (g1 & Hg1 & H).
    rewrite Hg1 in Hex. simpl in Hex. simplify_eq.
    by destruct (loop_tail_frame i g1) as (-> & _).
Qed.

(** X2.  Between calls the state variable is 0 or 1, and while it is 1
    (receiving) the cursor lies in 1..512: neither "receiving with no start
    code yet" nor "receiving with a full buffer" outlives a call. *)
Theorem receiving_cursor_range (cs : list Call) :
  ∃ g, power_on cs = Some g
    ∧ (dmxState g = 0
       ∨ (dmxState g = 1 ∧ 1 ≤ channelCount g ≤ DMX_CHANNELS)).
Proof.
  destruct (power_on_Inv cs) as (g & Hg & HI & _).
  exists g. split; [done | apply HI].
Qed.

(** X3.  After [setup] and any sequence of calls, whatever [rs485.read()]
    returned, every slot of the buffer holds a value in 0..255 and so does
    every result of [getDMXChannel]. *)
Theorem channel_values_are_bytes (cs : list Call) :
  ∃ g, power_on cs = Some g
    ∧ Forall (fun b => 0 ≤ b ≤ 255) (dmxData g)
    ∧ ∀ n, 0 ≤ getDMXChannel n g ≤ 255.
Proof.
  destruct (power_on_invariant (fun g => Forall (fun b => 0 ≤ b ≤ 255) (dmxData g)))
    with (cs := cs) as (g & Hg & HI & HP).
  - apply Forall_replicate. lia.
  - intros c g g' HI HP Hex.
    destruct (exec_dmxData c g g' HI Hex) as [->|(idx & _ & ->)]; [done|].
    apply Forall_insert; [done|].
    unfold receivedByte, to_u8.
    pose proof (Z.mod_pos_bound (rx_read (call_rx c)) 256 ltac:(lia)). lia.
  - exists g. split; [done|]. split; [done|].
    intros n. unfold getDMXChannel.
    destruct (_ && _); [|lia]. unfold dmx_load.
    destruct (dmxData g !! Z.to_nat n) as [x|] eqn:Hx; simpl; [|lia].
    by apply (Forall_lookup_1 _ _ _ _ HP Hx).
Qed.

(** ** Whole, truncated and rejected frames *)

Lemma no_breakb_spec ins : ∀ t, no_breakb t ins = true → no_break t ins.
Proof.
  induction ins as [|i ins IH]; intros t H; simpl in *; [done|].
  destruct (rx_available i); [|by apply IH].
  apply andb_true_iff in H as [H1 H2]. split; [|by apply IH].
  by apply negb_true_iff.
Qed.

Lemma receiveDMX_start i g :
  rx_available i = true → break_detected i g = true →
  receivedByte i = DMX_START_CODE →
  receiveDMX i g
  = Some (set_channelCount 1
            (set_dmxData (<[0%nat := DMX_START_CODE]> (dmxData g))
               (set_lastByteTime (rx_micros i)
                  (set_inBreak false
                     (set_channelCount 0 (set_dmxState 1 g)))))).
Proof.
  intros Hav Hbr Hb. unfold receiveDMX, handle_byte, detect_break.
  rewrite Hav, Hbr. destruct g as [d f t s c b ib lb]. unfold_setters.
  by rewrite Hb.
Qed.

Lemma receiveDMX_reject i g :
  rx_available i = true → break_detected i g = true →
  receivedByte i ≠ DMX_START_CODE →
  receiveDMX i g
  = Some (set_dmxState 0
            (set_lastByteTime (rx_micros i)
               (set_inBreak false (set_channelCount 0 (set_dmxState 1 g))))).
Proof.
  intros Hav Hbr Hb. unfold receiveDMX, handle_byte, detect_break.
  rewrite Hav, Hbr. destruct g as [d f t s c b ib lb]. unfold_setters.
  by destruct (Z.eqb_spec (receivedByte i) 0).
Qed.

(** X4.  Whatever state the sketch is in, a byte 0x00 after a break
    followed by 512 bytes without a break in between (calls that find no
    byte may come in between) completes a frame: the flag is set, the sketch
    waits for the next break, and [getDMXChannel n] is the n-th of the 512
    bytes for every n in 1..512. *)
Theorem whole_frame_is_readable (i0 : RxIn) (ins : list RxIn) (g : Globals) :
  length (dmxData g) = Z.to_nat (DMX_CHANNELS + 1) →
  rx_available i0 = true →
  break_detected i0 g = true →
  receivedByte i0 = DMX_START_CODE →
  length (received ins) = Z.to_nat DMX_CHANNELS →
  no_break (rx_micros i0) ins →
  ∃ g', run (CallReceive <$> i0 :: ins) g = Some g'
    ∧ dmxFrameReceived g' = true
    ∧ dmxState g' = 0
    ∧ ∀ n, 1 ≤ n ≤ DMX_CHANNELS →
        received ins !! Z.to_nat (n - 1) = Some (getDMXChannel n g').
Proof.
  intros Hlen Hav Hbr Hb Hn Hnb.
  destruct (receive_frame i0 ins g Hlen Hav Hbr Hb Hn Hnb)
    as (g' & Hrun & Hd & Hf & Hs & _).
  exists g'. split; [done|]. split; [done|]. split; [done|].
  intros n Hrange. unfold getDMXChannel, dmx_load. rewrite Hf, Hd.
  destruct (Z.leb_spec 1 n); [|lia].
  destruct (Z.leb_spec n DMX_CHANNELS); [|lia]. simpl.
  replace (Z.to_nat n) with (S (Z.to_nat (n - 1))) by lia. simpl.
  destruct (lookup_lt_is_Some_2 (received ins) (Z.to_nat (n - 1))) as [x Hx].
  - rewrite Hn. unfold DMX_CHANNELS in *. lia.
  - by rewrite Hx.
Qed.

Lemma whole_frame_is_readable_witness :
  let i0 := mkRxIn true 1000 0 5 in
  let ins := byte_inputs 1044 5 (seqZ 1 512) in
  let g := mkGlobals (replicate 513 9) false 0 1 200 0 false 100 in
  length (dmxData g) = Z.to_nat (DMX_CHANNELS + 1)
  ∧ rx_available i0 = true
  ∧ break_detected i0 g = true
  ∧ receivedByte i0 = DMX_START_CODE
  ∧ length (received ins) = Z.to_nat DMX_CHANNELS
  ∧ no_break (rx_micros i0) ins
  ∧ ∃ g', run (CallReceive <$> i0 :: ins) g = Some g'
      ∧ dmxFrameReceived g' = true
      ∧ dmxState g' = 0
      ∧ ∀ n, 1 ≤ n ≤ DMX_CHANNELS →
          received ins !! Z.to_nat (n - 1) = Some (getDMXChannel n g').
Proof.
  intros i0 ins g.
  assert (Hlen : length (received ins) = Z.to_nat DMX_CHANNELS)
    by (vm_compute; reflexivity).
  assert (Hnb : no_break (rx_micros i0) ins)
    by (apply no_breakb_spec; vm_compute; reflexivity).
  do 4 (split; [reflexivity|]). split; [exact Hlen|]. split; [exact Hnb|].
  apply (whole_frame_is_readable i0 ins g eq_refl eq_refl eq_refl eq_refl
           Hlen Hnb).
Defined.

(** X5.  A byte other than 0x00 after a break rejects the frame: that byte
    and all bytes that follow without a break are dropped, and buffer, frame
    flag, [lastFrameTime] and every channel stay as they were before. *)
Theorem rejected_frame_is_dropped (i0 : RxIn) (ins : list RxIn) (g : Globals) :
  rx_available i0 = true →
  break_detected i0 g = true →
  receivedByte i0 ≠ DMX_START_CODE →
  no_break (rx_micros i0) ins →
  ∃ g', run (CallReceive <$> i0 :: ins) g = Some g'
    ∧ dmxState g' = 0
    ∧ dmxData g' = dmxData g
    ∧ dmxFrameReceived g' = dmxFrameReceived g
    ∧ lastFrameTime g' = lastFrameTime g
    ∧ ∀ n, getDMXChannel n g' = getDMXChannel n g.
Proof.
  intros Hav Hbr Hb Hnb. rewrite fmap_cons. cbn [run exec].
  rewrite (receiveDMX_reject i0 g Hav Hbr Hb). cbn [mbind option_bind].
  match goal with |- ∃ g', run _ ?x = _ ∧ _ => set (g1 := x) end.
  destruct (waiting_ignores ins g1) as (g' & Hrun & Hd & Hf & Ht & Hs & _);
    [done | done |].
  exists g'. split; [done|]. split; [done|].
  split; [by rewrite Hd|]. split; [by rewrite Hf|]. split; [by rewrite Ht|].
  intros n. unfold getDMXChannel, dmx_load. by rewrite Hf, Hd.
Qed.

Lemma rejected_frame_is_dropped_witness :
  let i0 := mkRxIn true 1000 85 5 in
  let ins := byte_inputs 1044 5 [1; 2; 3] in
  let g := mkGlobals (replicate 513 9) true 3 0 513 0 false 100 in
  rx_available i0 = true
  ∧ break_detected i0 g = true
  ∧ receivedByte i0 ≠ DMX_START_CODE
  ∧ no_break (rx_micros i0) ins
  ∧ ∃ g', run (CallReceive <$> i0 :: ins) g = Some g'
      ∧ dmxState g' = 0
      ∧ dmxData g' = dmxData g
      ∧ dmxFrameReceived g' = dmxFrameReceived g
      ∧ lastFrameTime g' = lastFrameTime g
      ∧ ∀ n, getDMXChannel n g' = getDMXChannel n g.
Proof.
  intros i0 ins g.
  assert (Hb : receivedByte i0 ≠ DMX_START_CODE) by (by vm_compute).
  assert (Hnb : no_break (rx_micros i0) ins)
    by (apply no_breakb_spec; vm_compute; reflexivity).
  do 2 (split; [reflexivity|]). split; [exact Hb|]. split; [exact Hnb|].
  apply (rejected_frame_is_dropped i0 ins g eq_refl eq_refl Hb Hnb).
Defined.

(** X6.  A frame in the making: after a byte 0x00 that follows a break and
    [k] further bytes without a break, [k] at most 511, the sketch is
    receiving with the cursor at [k + 1]; frame flag and [lastFrameTime] are
    as before, slots 1..k hold the [k] bytes and the slots above [k] hold
    what they held before. *)
Theorem frame_in_the_making (i0 : RxIn) (ins : list RxIn) (g : Globals) :
  length (dmxData g) = Z.to_nat (DMX_CHANNELS + 1) →
  rx_available i0 = true →
  break_detected i0 g = true →
  receivedByte i0 = DMX_START_CODE →
  Z.of_nat (length (received ins)) < DMX_CHANNELS →
  no_break (rx_micros i0) ins →
  ∃ g', run (CallReceive <$> i0 :: ins) g = Some g'
    ∧ dmxState g' = 1
    ∧ channelCount g' = Z.of_nat (length (received ins)) + 1
    ∧ dmxFrameReceived g' = dmxFrameReceived g
    ∧ lastFrameTime g' = lastFrameTime g
    ∧ (∀ n, 1 ≤ n ≤ Z.of_nat (length (received ins)) →
         received ins !! Z.to_nat (n - 1) = Some (dmx_load n g'))
    ∧ (∀ n, Z.of_nat (length (received ins)) < n →
         dmx_load n g' = dmx_load n g).
Proof.
  intros Hlen Hav Hbr Hb Hk Hnb. rewrite fmap_cons. cbn [run exec].
  rewrite (receiveDMX_start i0 g Hav Hbr Hb). cbn [mbind option_bind].
  match goal with |- ∃ g', run _ ?x = _ ∧ _ => set (g1 := x) end.
  destruct (receive_channels ins g1) as (g' & Hrun & Hd & Hc & Hfl).
  { subst g1. destruct g; unfold_setters. by rewrite length_insert. }
  { done. }
  { subst g1. unfold DMX_CHANNELS. simpl. lia. }
  { subst g1. unfold DMX_CHANNELS in *. simpl. lia. }
  { done. }
  assert (Hc1 : channelCount g1 = 1) by done. rewrite Hc1 in *.
  assert (Hd1 : dmxData g1 = <[0%nat := DMX_START_CODE]> (dmxData g)) by done.
  assert (Hf1 : dmxFrameReceived g1 = dmxFrameReceived g) by done.
  assert (Ht1 : lastFrameTime g1 = lastFrameTime g) by done.
  rewrite Hd1, Hf1, Ht1 in *. clearbody g1.
  destruct (Z.ltb_spec DMX_CHANNELS (channelCount g')) as [|_]; [lia|].
  destruct Hfl as (Hs & Hf & Ht).
  exists g'. split; [done|]. split; [done|]. split; [lia|].
  split; [done|]. split; [done|].
  assert (Htk : length (take (Z.to_nat 1) (<[0%nat := DMX_START_CODE]> (dmxData g)))
                = 1%nat).
  { rewrite length_take, length_insert, Hlen. unfold DMX_CHANNELS. lia. }
  split.
  - intros n Hn. unfold dmx_load. rewrite Hd.
    rewrite lookup_app_r by lia. rewrite Htk.
    rewrite lookup_app_l by lia.
    replace (Z.to_nat n - 1)%nat with (Z.to_nat (n - 1)) by lia.
    destruct (lookup_lt_is_Some_2 (received ins) (Z.to_nat (n - 1))) as [x Hx];
      [lia|]. by rewrite Hx.
  - intros n Hn. unfold dmx_load. rewrite Hd.
    rewrite lookup_app_r by lia. rewrite Htk.
    rewrite lookup_app_r by lia. rewrite lookup_drop.
    rewrite list_lookup_insert_ne by lia. do 2 f_equal. lia.
Qed.

Lemma frame_in_the_making_witness :
  let i0 := mkRxIn true 1000 0 5 in
  let ins := byte_inputs 1044 5 [11; 12; 13] in
  let g := mkGlobals (replicate 513 9) true 3 0 513 0 false 100 in
  length (dmxData g) = Z.to_nat (DMX_CHANNELS + 1)
  ∧ rx_available i0 = true
  ∧ break_detected i0 g = true
  ∧ receivedByte i0 = DMX_START_CODE
  ∧ Z.of_nat (length (received ins)) < DMX_CHANNELS
  ∧ no_break (rx_micros i0) ins
  ∧ ∃ g', run (CallReceive <$> i0 :: ins) g = Some g'
      ∧ dmxState g' = 1
      ∧ channelCount g' = Z.of_nat (length (received ins)) + 1
      ∧ dmxFrameReceived g' = dmxFrameReceived g
      ∧ lastFrameTime g' = lastFrameTime g
      ∧ (∀ n, 1 ≤ n ≤ Z.of_nat (length (received ins)) →
           received ins !! Z.to_nat (n - 1) = Some (dmx_load n g'))
      ∧ (∀ n, Z.of_nat (length (received ins)) < n →
           dmx_load n g' = dmx_load n g).
Proof.
  intros i0 ins g.
  assert (Hk : Z.of_nat (length (received ins)) < DMX_CHANNELS)
    by (vm_compute; reflexivity).
  assert (Hnb : no_break (rx_micros i0) ins)
    by (apply no_breakb_spec; vm_compute; reflexivity).
  do 4 (split; [reflexivity|]). split; [exact Hk|]. split; [exact Hnb|].
  apply (frame_in_the_making i0 ins g eq_refl eq_refl eq_refl eq_refl Hk Hnb).
Defined.

(** ** How many bytes a frame takes *)

Lemma exec_bytes c g g' (n : Z) :
  Inv g → exec c g = Some g' →
  channelCount g ≤ n →
  (dmxFrameReceived g = true → DMX_CHANNELS + 1 ≤ n) →
  let n' := n + (if rx_available (call_rx c) then 1 else 0) in
  channelCount g' ≤ n'
  ∧ (dmxFrameReceived g' = true → DMX_CHANNELS + 1 ≤ n').
Proof.
  intros HI Hex Hc Hf.
  assert (∀ i g1, receiveDMX i g = Some g1 →
            let n' := n + (if rx_available i then 1 else 0) in
            channelCount g1 ≤ n'
            ∧ (dmxFrameReceived g1 = true → DMX_CHANNELS + 1 ≤ n')) as Hrx.
  { clear Hex. intros i g1. destruct HI as [Hlen Hcnt Hst Hstate].
    destruct g as [d f t s c0 b ib lb]. revert Hcnt Hstate Hc Hf.
    receive_cases; intros Hcnt Hstate Hc Hf Hg1; simplify_eq; simpl;
      split; try lia; intros Hf'; try (specialize (Hf Hf')); lia. }
  destruct c as [i|i]; simpl in *; [by apply Hrx|].
  unfold loop in Hex. destruct (receiveDMX (lp_rx i) g) as [g1|] eqn:Hg1;
    [|done]. simpl in Hex. simplify_eq.
  destruct (Hrx (lp_rx i) g1 Hg1) as [Hc1 Hf1].
  destruct (loop_tail_frame i g1) as (_ & _ & -> & _ & Hoff).
  split; [done|]. intros Hon. apply Hf1.
  destruct (dmxFrameReceived g1); [done|]. by rewrite Hoff in Hon.
Qed.

Lemma bytes_read_cons c cs :
  Z.of_nat (bytes_read (c :: cs))
  = (if rx_available (call_rx c) then 1 else 0) + Z.of_nat (bytes_read cs).
Proof.
  unfold bytes_read. rewrite filter_cons.
  destruct (decide _) as [->|Hn]; simpl; [lia|].
  destruct (rx_available (call_rx c)); [done | lia].
Qed.

(** X7.  The cursor never runs ahead of the number of bytes read, and the
    frame flag is never set before 513 bytes have been read from the serial
    line, whatever their timing and values. *)
Theorem flag_takes_513_bytes (cs : list Call) :
  ∃ g, power_on cs = Some g
    ∧ channelCount g ≤ Z.of_nat (bytes_read cs)
    ∧ (dmxFrameReceived g = true →
       DMX_CHANNELS + 1 ≤ Z.of_nat (bytes_read cs)).
Proof.
  rewrite power_on_run.
  assert (∀ g n, Inv g → channelCount g ≤ n →
            (dmxFrameReceived g = true → DMX_CHANNELS + 1 ≤ n) →
            ∃ g', run cs g = Some g'
              ∧ channelCount g' ≤ n + Z.of_nat (bytes_read cs)
              ∧ (dmxFrameReceived g' = true →
                 DMX_CHANNELS + 1 ≤ n + Z.of_nat (bytes_read cs))) as H.
  { induction cs as [|c cs IH]; intros g n HI Hc Hf.
    - exists g. split; [done|]. unfold bytes_read. simpl.
      rewrite Z.add_0_r. done.
    - cbn [run]. destruct (exec_Inv c g HI) as (g1 & Hex & HI1).
      rewrite Hex. cbn [mbind option_bind].
      destruct (exec_bytes c g g1 n HI Hex Hc Hf) as [Hc1 Hf1].
      destruct (IH g1 _ HI1 Hc1 Hf1) as (g' & Hrun & Hc' & Hf').
      exists g'. split; [done|]. rewrite bytes_read_cons.
      rewrite Z.add_assoc. done. }
  destruct (H boot 0 Inv_boot) as (g & Hg & Hc & Hf); [done | done |].
  exists g. by rewrite Z.add_0_l in *.
Qed.

(** ** Clocks that wrap around *)

Lemma ulong_sub_elapsed (t d : Z) :
  0 ≤ d < ULONG_SIZE → ulong_sub ((t + d) mod ULONG_SIZE) t = d.
Proof.
  intros Hd. unfold ulong_sub, ULONG_SIZE in *.
  rewrite Zminus_mod_idemp_l.
  replace (t + d - t) with d by lia. by apply Z.mod_small.
Qed.

(** X8.  The break test measures the gap correctly across a wrap-around of
    the 32-bit microsecond counter: a byte that arrives [d] microseconds
    after the previous one, [d] below 2^32, is a break exactly when [d]
    exceeds 88, wherever in its range the counter stood. *)
Theorem break_test_survives_wraparound (i : RxIn) (g : Globals) (d : Z) :
  0 ≤ d < ULONG_SIZE →
  rx_micros i = (lastByteTime g + d) mod ULONG_SIZE →
  break_detected i g = (88 <? d).
Proof.
  intros Hd Hi. unfold break_detected. rewrite Hi.
  by rewrite ulong_sub_elapsed.
Qed.

Lemma break_test_survives_wraparound_witness :
  let g := set_lastByteTime (2 ^ 32 - 10) boot in
  let i := mkRxIn true 34 0 0 in
  0 ≤ 44 < ULONG_SIZE
  ∧ rx_micros i = (lastByteTime g + 44) mod ULONG_SIZE
  ∧ break_detected i g = (88 <? 44).
Proof.
  intros g i.
  assert (Hd : 0 ≤ 44 < ULONG_SIZE) by (by vm_compute).
  split; [exact Hd|]. split; [reflexivity|].
  apply (break_test_survives_wraparound i g 44 Hd eq_refl).
Defined.

(** X9.  Read after the call that completes a frame, with no pass of
    [loop] in between, [isDMXConnected] is true for exactly the 2000 ms
    that follow the completion, also when the 32-bit millisecond counter
    wraps around in between. *)
Theorem connected_for_2000ms (i : RxIn) (g g' : Globals) (d : Z) :
  Inv g →
  receiveDMX i g = Some g' →
  completes_frame i g = true →
  0 ≤ d < ULONG_SIZE →
  isDMXConnected ((rx_millis i + d) mod ULONG_SIZE) g' = (d <? 2000).
Proof.
  intros HI Hrx Hcomp Hd.
  pose proof (receiveDMX_completes i g g' HI Hrx) as H.
  rewrite Hcomp in H. destruct H as (Hf & Ht & _).
  unfold isDMXConnected. rewrite Hf, Ht. simpl.
  by rewrite ulong_sub_elapsed.
Qed.

Lemma connected_for_2000ms_witness :
  let g := mkGlobals (replicate 513 0) false 0 1 512 0 false 1000 in
  let i := mkRxIn true 1044 7 (2 ^ 32 - 500) in
  let g' := mkGlobals (<[512%nat := 7]> (replicate 513 0)) true (2 ^ 32 - 500)
              0 513 0 false 1044 in
  Inv g
  ∧ receiveDMX i g = Some g'
  ∧ completes_frame i g = true
  ∧ 0 ≤ 1999 < ULONG_SIZE
  ∧ isDMXConnected ((rx_millis i + 1999) mod ULONG_SIZE) g' = (1999 <? 2000).
Proof.
  intros g i g'.
  assert (HI : Inv g).
  { split; [reflexivity | by vm_compute | reflexivity |].
    right. by vm_compute. }
  assert (Hrx : receiveDMX i g = Some g') by (vm_compute; reflexivity).
  assert (Hd : 0 ≤ 1999 < ULONG_SIZE) by (by vm_compute).
  split; [exact HI|]. split; [exact Hrx|]. split; [reflexivity|].
  split; [exact Hd|].
  apply (connected_for_2000ms i g g' 1999 HI Hrx eq_refl Hd).
Defined.

(** ** loop() and the frame flag *)





(** X11.  After a pass of [loop] that reads the same clock value [m] at
    lines 41, 43 and 47 and leaves the frame flag set, [lastFrameTime] is at
    most 1000 ms behind [m], whether or not a frame has arrived lately; so
    [isDMXConnected] is true whenever it is called less than 1000 ms after
    such a pass. *)
Theorem loop_keeps_link_connected (i : LoopIn) (g g' : Globals) (m now : Z) :
  loop i g = Some g' →
  lp_millis_print i = m → lp_millis_stamp i = m → lp_millis_timeout i = m →
  dmxFrameReceived g' = true →
  ulong_sub now m < 1000 →
  ulong_sub m (lastFrameTime g') ≤ 1000
  ∧ isDMXConnected now g' = true.
Proof.
  intros Hloop Hp Hs Ht Hf Hnow. unfold loop in Hloop.
  destruct (receiveDMX (lp_rx i) g) as [g1|]; [|done].
  simpl in Hloop. simplify_eq.
  assert (Hm : ulong_sub (lp_millis_print i) (lastFrameTime (loop_tail i g1))
               ≤ 1000).
  { revert Hf. unfold loop_tail. rewrite Hs, Ht.
    destruct g1 as [d f t s c b ib lb]. unfold_setters.
    destruct f; simpl.
    - destruct (Z.ltb_spec 1000 (ulong_sub (lp_millis_print i) t)); simpl.
      + assert (H0 : ulong_sub (lp_millis_print i) (lp_millis_print i) = 0)
          by (unfold ulong_sub; by rewrite Z.sub_diag).
        rewrite H0. simpl. rewrite H0. lia.
      + destruct (Z.ltb_spec 5000 (ulong_sub (lp_millis_print i) t)); simpl;
          [lia | done].
    - by destruct (5000 <? _). }
  split; [done|]. unfold isDMXConnected. rewrite Hf. simpl.
  pose proof (ulong_sub_triangle now (lp_millis_print i)
                (lastFrameTime (loop_tail i g1))).
  apply Z.ltb_lt. lia.
Qed.

Lemma loop_keeps_link_connected_witness :
  let g := mkGlobals (replicate 513 1) true 122 0 513 0 false 122528 in
  let i := mkLoopIn (mkRxIn false 0 0 0) 60000 60000 60000 in
  let g' := set_lastFrameTime 60000 g in
  loop i g = Some g'
  ∧ lp_millis_print i = 60000
  ∧ lp_millis_stamp i = 60000
  ∧ lp_millis_timeout i = 60000
  ∧ dmxFrameReceived g' = true
  ∧ ulong_sub 60999 60000 < 1000
  ∧ ulong_sub 60000 (lastFrameTime g') ≤ 1000
  ∧ isDMXConnected 60999 g' = true.
Proof.
  intros g i g'.
  assert (Hnow : ulong_sub 60999 60000 < 1000) by (by vm_compute).
  do 5 (split; [reflexivity|]). split; [exact Hnow|].
  apply (loop_keeps_link_connected i g g' 60000 60999
           eq_refl eq_refl eq_refl eq_refl eq_refl Hnow).
Defined.

(** ** controlLED() *)

Lemma power_on_bytes cs :
  ∃ g, power_on cs = Some g ∧ Forall (fun b => 0 ≤ b ≤ 255) (dmxData g).
Proof.
  destruct (power_on_invariant (fun g => Forall (fun b => 0 ≤ b ≤ 255) (dmxData g)))
    with (cs := cs) as (g & Hg & _ & HP).
  - apply Forall_replicate. lia.
  - intros c g g' HI HP Hex.
    destruct (exec_dmxData c g g' HI Hex) as [->|(idx & _ & ->)]; [done|].
    apply Forall_insert; [done|].
    unfold receivedByte, to_u8.
    pose proof (Z.mod_pos_bound (rx_read (call_rx c)) 256 ltac:(lia)). lia.
  - by exists g.
Qed.

Lemma getDMXChannel_byte g n :
  Forall (fun b => 0 ≤ b ≤ 255) (dmxData g) → 0 ≤ getDMXChannel n g ≤ 255.
Proof.
  intros HP. unfold getDMXChannel.
  destruct (_ && _); [|lia]. unfold dmx_load.
  destruct (dmxData g !! Z.to_nat n) as [x|] eqn:Hx; simpl; [|lia].
  by apply (Forall_lookup_1 _ _ _ _ HP Hx).
Qed.

(** X12.  After [setup] and any sequence of calls, at whatever time it is
    called, [controlLED] writes to pin 9 a value in 0..255, the range of
    [analogWrite], and it writes 0 as long as no frame has completed. *)
Theorem led_value_in_range (cs : list Call) (now : Z) :
  ∃ g, power_on cs = Some g
    ∧ (controlLED now g).1 = 9
    ∧ 0 ≤ (controlLED now g).2 ≤ 255
    ∧ (completed_frame cs = None → controlLED now g = (9, 0)).
Proof.
  destruct (power_on_bytes cs) as (g & Hg & HP).
  destruct (power_on_Inv cs) as (g0 & Hg0 & _ & [Hnone _]).
  rewrite Hg in Hg0. simplify_eq.
  exists g0. split; [done|]. unfold controlLED.
  split; [by destruct (isDMXConnected now g0)|]. split.
  - destruct (isDMXConnected now g0); simpl; [|lia].
    by apply getDMXChannel_byte.
  - intros Hp. unfold isDMXConnected. by rewrite (Hnone Hp).
Qed.

Lemma receiveDMX_completes_data i g g' :
  Inv g → receiveDMX i g = Some g' → completes_frame i g = true →
  dmxData g'
  = <[Z.to_nat DMX_CHANNELS := receivedByte i]> (dmxData g).
Proof.
  intros [Hlen Hcnt Hst Hstate]. destruct g as [d f t s c b ib lb].
  revert Hcnt Hstate.
  receive_cases; intros Hcnt Hstate Hg' Hcomp; simplify_eq; simpl in *;
    try done; try lia.
  do 2 f_equal. lia.
Qed.

(** X13.  Called after the call of [receiveDMX] that completes a frame,
    with no pass of [loop] in between, [controlLED] writes to pin 9 the byte
    that the frame has stored in slot 1 during the 2000 ms that follow the
    completion, and 0 from then on; a wrap-around of the millisecond
    counter in between does not matter. *)
Theorem led_follows_channel_1 (i : RxIn) (g g' : Globals) (d : Z) :
  Inv g →
  receiveDMX i g = Some g' →
  completes_frame i g = true →
  0 ≤ d < ULONG_SIZE →
  controlLED ((rx_millis i + d) mod ULONG_SIZE) g'
  = (9, if d <? 2000 then dmx_load 1 g else 0).
Proof.
  intros HI Hrx Hcomp Hd.
  pose proof (receiveDMX_completes i g g' HI Hrx) as H.
  rewrite Hcomp in H. destruct H as (Hf & Ht & _).
  pose proof (receiveDMX_completes_data i g g' HI Hrx Hcomp) as Hdata.
  unfold controlLED, isDMXConnected. rewrite Hf, Ht. simpl.
  rewrite ulong_sub_elapsed by done.
  destruct (d <? 2000); [|done]. f_equal.
  unfold getDMXChannel, dmx_load. rewrite Hf, Hdata. simpl.
  by rewrite list_lookup_insert_ne by (unfold DMX_CHANNELS; lia).
Qed.

Lemma led_follows_channel_1_witness :
  let g := mkGlobals (<[1%nat := 200]> (replicate 513 0)) false 0 1 512 0
             false 1000 in
  let i := mkRxIn true 1044 7 (2 ^ 32 - 500) in
  let g' := mkGlobals (<[512%nat := 7]> (<[1%nat := 200]> (replicate 513 0)))
              true (2 ^ 32 - 500) 0 513 0 false 1044 in
  Inv g
  ∧ receiveDMX i g = Some g'
  ∧ completes_frame i g = true
  ∧ 0 ≤ 1999 < ULONG_SIZE
  ∧ controlLED ((rx_millis i + 1999) mod ULONG_SIZE) g'
    = (9, if 1999 <? 2000 then dmx_load 1 g else 0).
Proof.
  intros g i g'.
  assert (HI : Inv g).
  { split; [reflexivity | by vm_compute | reflexivity |].
    right. by vm_compute. }
  assert (Hrx : receiveDMX i g = Some g') by (vm_compute; reflexivity).
  assert (Hd : 0 ≤ 1999 < ULONG_SIZE) by (by vm_compute).
  split; [exact HI|]. split; [exact Hrx|]. split; [reflexivity|].
  split; [exact Hd|].
  apply (led_follows_channel_1 i g g' 1999 HI Hrx eq_refl Hd).
Defined.

(** ** printDMXData() *)

Lemma printed_channels_nonzero g (l : list Z) :
  printed_channels
    (flat_map (fun i => if 0 <? dmx_load i g then print_channel i g else []) l)
  = filter (fun n => 0 < dmx_load n g) l.
Proof.
  unfold printed_channels. induction l as [|n l IH]; [done|].
  cbn [flat_map]. rewrite omap_app, IH, filter_cons.
  destruct (Z.ltb_spec 0 (dmx_load n g)); destruct (decide _); try lia; done.
Qed.

Lemma printed_values_nonzero g (l : list Z) :
  printed_values
    (flat_map (fun i => if 0 <? dmx_load i g then print_channel i g else []) l)
  = (fun n => dmx_load n g) <$> filter (fun n => 0 < dmx_load n g) l.
Proof.
  unfold printed_values. induction l as [|n l IH]; [done|].
  cbn [flat_map]. rewrite omap_app, IH, filter_cons.
  destruct (Z.ltb_spec 0 (dmx_load n g)); destruct (decide _); try lia; done.
Qed.

(** X14.  [printDMXData] reports the channels 1..16 and after them exactly
    those of the channels 17..512 whose byte in the buffer is not 0, in
    ascending order and each once, every channel number followed by the byte
    that the buffer holds for it; no other number or value is printed apart
    from the start code. *)
Theorem printDMXData_reports (g : Globals) :
  let reported :=
    seqZ 1 16 ++ filter (fun n => 0 < dmx_load n g) (seqZ 17 496) in
  printed_channels (printDMXData g) = reported
  ∧ printed_values (printDMXData g) = (fun n => dmx_load n g) <$> reported.
Proof.
  unfold printDMXData. split.
  - unfold printed_channels. rewrite !omap_app.
    fold (printed_channels (print_nonzero_channels g)).
    unfold print_nonzero_channels. rewrite printed_channels_nonzero.
    rewrite app_nil_r. reflexivity.
  - unfold printed_values. rewrite !omap_app.
    fold (printed_values (print_nonzero_channels g)).
    unfold print_nonzero_channels. rewrite printed_values_nonzero.
    rewrite app_nil_r, fmap_app. reflexivity.
Qed.
